(** * generate_rxn_image.py: the thiol-maleimide reaction image script

    A shallow embedding of [src/generate_rxn_image.py].  The script is a
    straight line of calls into RDKit and pathlib; it is modelled as a
    computation in a state-and-exception monad.  The state carries the
    process environment (arguments, environment variables, working directory,
    file system), a store of the mutable drawer objects the script holds
    references to, and the trace of calls that left the script.  RDKit itself
    is a parameter of the development: a [Toolkit] of functions from the
    arguments of each call to either an exception or a result. *)

From Stdlib Require Import ZArith String List PrimFloat.
From Stdlib.Strings Require Import Ascii Byte.
From stdpp Require Import gmap strings list.

(** ** Python values the script handles *)

(** A raised exception: its class and its message. *)
Record Exception := { exc_class : string; exc_message : string }.

(** A [bytes] object. *)
Definition bytes := list byte.

(** [sep.join(items)] *)
Fixpoint join (sep : string) (items : list string) : string :=
  match items with
  | [] => ""
  | x :: rest =>
      match rest with
      | [] => x
      | _ :: _ => x +:+ sep +:+ join sep rest
      end
  end.

(** ** The constants of the script (lines 5 to 14) *)

Definition reactants_smarts : list string :=
  [ "[*]-[S]-[H]";
    "[*]-[N]1-[C](=[O])-[CH]=[CH]-[C](=[O])-1" ]%string.

Definition products_smarts : list string :=
  [ "[*]-[N]1-[C](=[O])-[CH2]-[CH](-[S]-[*])-[C](=[O])-1" ]%string.

Definition thiol_maleimide_click_smarts : string :=
  join "." reactants_smarts +:+ ">>" +:+ join "." products_smarts.

(** ** The process environment *)

(** [pathlib.Path(s)] on POSIX. *)
Record PosixPath := Path { fspath : string }.

Definition is_absolute (p : PosixPath) : bool :=
  match fspath p with
  | String "/" _ => true
  | _ => false
  end.

Fixpoint ends_with_sep (s : string) : bool :=
  match s with
  | EmptyString => false
  | String c EmptyString => if Ascii.eqb c "/" then true else false
  | String _ rest => ends_with_sep rest
  end.

(** Where the operating system finds [p] for a process whose working
    directory is [dir]: an absolute path is taken as it is, a relative one is
    looked up from [dir]. *)
Definition resolve (dir : string) (p : PosixPath) : string :=
  if is_absolute p then fspath p
  else if ends_with_sep dir then dir +:+ fspath p
  else dir +:+ "/" +:+ fspath p.

(** How a [write_bytes] can go wrong.  [write_bytes] opens the file in mode
    ["wb"] and then writes: when the open raises nothing is touched; when the
    write raises the file has already been truncated and holds the first [n]
    bytes of the data. *)
Inductive WriteFault :=
| OpenRaises (e : Exception)
| WriteRaises (e : Exception) (n : nat).

Record World := {
  argv : list string;
  environ : gmap string string;
  cwd : string;
  files : gmap string bytes;
  faults : string -> bytes -> option WriteFault
}.

Definition set_files (fs : gmap string bytes) (w : World) : World :=
  {| argv := argv w; environ := environ w; cwd := cwd w;
     files := fs; faults := faults w |}.

Definition set_inputs (a : list string) (e : gmap string string) (w : World) : World :=
  {| argv := a; environ := e; cwd := cwd w;
     files := files w; faults := faults w |}.

(** The first eight bytes of every PNG file. *)
Definition png_signature : bytes :=
  [x89; x50; x4e; x47; x0d; x0a; x1a; x0a].

Fixpoint starts_with (pre data : bytes) : bool :=
  match pre, data with
  | [], _ => true
  | _ :: _, [] => false
  | a :: pre', b :: data' => if Byte.eqb a b then starts_with pre' data' else false
  end.

(** ** RDKit, as far as the script uses it *)

Section Model.

(** What RDKit keeps to itself: the parsed reaction, the Cairo surface behind
    a drawer (its size and what has been painted on it), and the draw options
    the script never names. *)
Context {ChemicalReaction Surface OtherOptions : Type}.

(** [MolDrawOptions]: the two attributes the script assigns, and the rest. *)
Record MolDrawOptions := {
  dummiesAreAttachments : bool;
  padding : float;
  other_options : OtherOptions
}.

(** A [MolDraw2DCairo] object: it owns its options and its surface. *)
Record Drawer := {
  options : MolDrawOptions;
  surface : Surface
}.

(** The entry points the script calls.  Each either raises or returns. *)
Record Toolkit := {
  rdkit_ReactionFromSmarts : string -> Exception + ChemicalReaction;
  rdkit_MolDraw2DCairo : Z -> Z -> Exception + Drawer;
  rdkit_DrawReaction : Drawer -> ChemicalReaction -> Exception + Drawer;
  rdkit_GetDrawingText : Drawer -> Exception + bytes
}.

Variable rdkit : Toolkit.

(** ** Calls, traces and the interpreter state *)

(** A call that leaves the script, with the arguments it is made with; for a
    method of the drawer, the drawer as it is when the call is made. *)
Inductive Call :=
| CallReactionFromSmarts (smarts : string)
| CallMolDraw2DCairo (width height : Z)
| CallDrawReaction (self : Drawer) (rxn : ChemicalReaction)
| CallGetDrawingText (self : Drawer)
| CallWriteBytes (self : PosixPath) (data : bytes).

Record Event := { call : Call; raised : option Exception }.

(** Objects are held by reference: [d2d] is an index into the store, and
    [dopts] a reference to the options inside the drawer it came from. *)
Definition DrawerRef := nat.
Inductive OptionsRef := OptionsOf (d : DrawerRef).

Record State := {
  world : World;
  store : list Drawer;
  trace : list Event
}.

Definition initial (w : World) : State :=
  {| world := w; store := []; trace := [] |}.

Definition log (c : Call) (r : option Exception) (s : State) : State :=
  {| world := world s; store := store s;
     trace := trace s ++ [ {| call := c; raised := r |} ] |}.

Definition set_store (h : list Drawer) (s : State) : State :=
  {| world := world s; store := h; trace := trace s |}.

Definition set_world (w : World) (s : State) : State :=
  {| world := w; store := store s; trace := trace s |}.

(** ** The monad of script statements *)

Definition M (A : Type) : Type := State -> (Exception + A) * State.

Definition ret {A} (a : A) : M A := fun s => (inr a, s).

Definition raise {A} (e : Exception) : M A := fun s => (inl e, s).

(** Sequencing without a handler: an exception of the first statement ends
    the computation, the second never runs. *)
Definition bind {A B} (m : M A) (k : A -> M B) : M B :=
  fun s =>
    match m s with
    | (inl e, s') => (inl e, s')
    | (inr a, s') => k a s'
    end.

Notation "x <- m ;; k" := (bind m (fun x => k))
  (at level 100, m at next level, right associativity).
Notation "m ;;; k" := (bind m (fun _ => k))
  (at level 100, right associativity).

(** A call into a library: the outcome goes to the trace, an exception is
    raised in the script. *)
Definition extern {A} (c : Call) (r : Exception + A) : M A :=
  fun s =>
    match r with
    | inl e => (inl e, log c (Some e) s)
    | inr a => (inr a, log c None s)
    end.

Definition dangling : Exception :=
  {| exc_class := "ReferenceError"; exc_message := "no such object" |}.

Definition deref (d : DrawerRef) : M Drawer :=
  fun s =>
    match store s !! d with
    | Some o => ret o s
    | None => raise dangling s
    end.

Definition assign (d : DrawerRef) (o : Drawer) : M unit :=
  fun s => (inr tt, set_store (<[d := o]> (store s)) s).

Definition alloc (o : Drawer) : M DrawerRef :=
  fun s => (inr (length (store s)), set_store (store s ++ [o]) s).

(** ** The statements of the script *)

(** [ReactionFromSmarts(smarts)] *)
Definition ReactionFromSmarts (smarts : string) : M ChemicalReaction :=
  extern (CallReactionFromSmarts smarts) (rdkit_ReactionFromSmarts rdkit smarts).

(** [Draw.MolDraw2DCairo(width, height)]: a new object in the store. *)
Definition MolDraw2DCairo (width height : Z) : M DrawerRef :=
  o <- extern (CallMolDraw2DCairo width height)
              (rdkit_MolDraw2DCairo rdkit width height) ;;
  alloc o.

(** [d2d.drawOptions()]: a reference into the drawer, not a copy. *)
Definition drawOptions (d2d : DrawerRef) : M OptionsRef :=
  deref d2d ;;; ret (OptionsOf d2d).

(** [dopts.dummiesAreAttachments = v] *)
Definition set_dummiesAreAttachments (dopts : OptionsRef) (v : bool) : M unit :=
  match dopts with
  | OptionsOf d =>
      o <- deref d ;;
      assign d {| options := {| dummiesAreAttachments := v;
                                padding := padding (options o);
                                other_options := other_options (options o) |};
                  surface := surface o |}
  end.

(** [dopts.padding = v] *)
Definition set_padding (dopts : OptionsRef) (v : float) : M unit :=
  match dopts with
  | OptionsOf d =>
      o <- deref d ;;
      assign d {| options := {| dummiesAreAttachments := dummiesAreAttachments (options o);
                                padding := v;
                                other_options := other_options (options o) |};
                  surface := surface o |}
  end.

(** [d2d.DrawReaction(rxn)]: paints on the drawer in place. *)
Definition DrawReaction (d2d : DrawerRef) (rxn : ChemicalReaction) : M unit :=
  o <- deref d2d ;;
  o' <- extern (CallDrawReaction o rxn) (rdkit_DrawReaction rdkit o rxn) ;;
  assign d2d o'.

(** [d2d.GetDrawingText()] *)
Definition GetDrawingText (d2d : DrawerRef) : M bytes :=
  o <- deref d2d ;;
  extern (CallGetDrawingText o) (rdkit_GetDrawingText rdkit o).

(** What a [write_bytes] does to the world, and what it returns. *)
Definition os_write (p : PosixPath) (data : bytes) (w : World)
  : (Exception + Z) * World :=
  let target := resolve (cwd w) p in
  match faults w target data with
  | None => (inr (Z.of_nat (length data)), set_files (<[target := data]> (files w)) w)
  | Some (OpenRaises e) => (inl e, w)
  | Some (WriteRaises e n) => (inl e, set_files (<[target := take n data]> (files w)) w)
  end.

(** [p.write_bytes(data)] *)
Definition write_bytes (p : PosixPath) (data : bytes) : M Z :=
  fun s =>
    let (r, w') := os_write p data (world s) in
    extern (CallWriteBytes p data) r (set_world w' s).

(** ** The script *)

(** Lines 16 to 22, for a descriptor [smarts].  In the last line Python
    evaluates the argument [d2d.GetDrawingText()] before it calls
    [write_bytes]. *)
Definition script (smarts : string) : M unit :=
  rxn <- ReactionFromSmarts smarts ;;
  d2d <- MolDraw2DCairo (-1) 150 ;;
  dopts <- drawOptions d2d ;;
  set_dummiesAreAttachments dopts true ;;;
  set_padding dopts 0%float ;;;
  DrawReaction d2d rxn ;;;
  png <- GetDrawingText d2d ;;
  _ <- write_bytes (Path "reaction.png") png ;;
  ret tt.

Definition main : M unit := script thiol_maleimide_click_smarts.

(** One run of the program in a world: a fresh interpreter, no objects. *)
Definition run_with (smarts : string) (w : World) : (Exception + unit) * State :=
  script smarts (initial w).

Definition run (w : World) : (Exception + unit) * State := main (initial w).

(** ** Reading a trace *)

(** The name of the entry point a call goes to. *)
Definition call_name (c : Call) : string :=
  match c with
  | CallReactionFromSmarts _ => "ReactionFromSmarts"
  | CallMolDraw2DCairo _ _ => "MolDraw2DCairo"
  | CallDrawReaction _ _ => "DrawReaction"
  | CallGetDrawingText _ => "GetDrawingText"
  | CallWriteBytes _ _ => "write_bytes"
  end.

(** The descriptors handed to the parser, in order. *)
Definition parsed (t : list Event) : list string :=
  omap (fun ev => match call ev with
                  | CallReactionFromSmarts smarts => Some smarts
                  | _ => None
                  end) t.


(** The drawers, as they were when [DrawReaction] was called on them. *)
Definition drawn (t : list Event) : list (Drawer * ChemicalReaction) :=
  omap (fun ev => match call ev with
                  | CallDrawReaction self rxn => Some (self, rxn)
                  | _ => None
                  end) t.

(** The drawers whose image was asked for. *)
Definition rendered (t : list Event) : list Drawer :=
  omap (fun ev => match call ev with
                  | CallGetDrawingText self => Some self
                  | _ => None
                  end) t.

(** The writes attempted: path as given, and data. *)
Definition written (t : list Event) : list (PosixPath * bytes) :=
  omap (fun ev => match call ev with
                  | CallWriteBytes self data => Some (self, data)
                  | _ => None
                  end) t.

(** The exceptions that came out of calls. *)
Definition failures (t : list Event) : list Exception :=
  omap raised t.

(** A drawer as the constructor returned it, after the two assignments of
    lines 19 and 20 and nothing else. *)
Definition configured (o : Drawer) : Drawer :=
  {| options := {| dummiesAreAttachments := true;
                   padding := 0%float;
                   other_options := other_options (options o) |};
     surface := surface o |}.

(** ** The runs of the script, case by case *)

Definition returned (c : Call) : Event := {| call := c; raised := None |}.
Definition failed (c : Call) (e : Exception) : Event := {| call := c; raised := Some e |}.

(** [Ran smarts w r s]: started in [w] on [smarts], the script ends with
    result [r] in state [s].  One rule per place where it can end. *)
Inductive Ran (smarts : string) (w : World) : Exception + unit -> State -> Prop :=
| ran_parse_failed e :
    rdkit_ReactionFromSmarts rdkit smarts = inl e ->
    Ran smarts w (inl e)
      {| world := w; store := [];
         trace := [failed (CallReactionFromSmarts smarts) e] |}
| ran_create_failed rxn e :
    rdkit_ReactionFromSmarts rdkit smarts = inr rxn ->
    rdkit_MolDraw2DCairo rdkit (-1) 150 = inl e ->
    Ran smarts w (inl e)
      {| world := w; store := [];
         trace := [returned (CallReactionFromSmarts smarts);
                   failed (CallMolDraw2DCairo (-1) 150) e] |}
| ran_draw_failed rxn d0 e :
    rdkit_ReactionFromSmarts rdkit smarts = inr rxn ->
    rdkit_MolDraw2DCairo rdkit (-1) 150 = inr d0 ->
    rdkit_DrawReaction rdkit (configured d0) rxn = inl e ->
    Ran smarts w (inl e)
      {| world := w; store := [configured d0];
         trace := [returned (CallReactionFromSmarts smarts);
                   returned (CallMolDraw2DCairo (-1) 150);
                   failed (CallDrawReaction (configured d0) rxn) e] |}
| ran_text_failed rxn d0 d1 e :
    rdkit_ReactionFromSmarts rdkit smarts = inr rxn ->
    rdkit_MolDraw2DCairo rdkit (-1) 150 = inr d0 ->
    rdkit_DrawReaction rdkit (configured d0) rxn = inr d1 ->
    rdkit_GetDrawingText rdkit d1 = inl e ->
    Ran smarts w (inl e)
      {| world := w; store := [d1];
         trace := [returned (CallReactionFromSmarts smarts);
                   returned (CallMolDraw2DCairo (-1) 150);
                   returned (CallDrawReaction (configured d0) rxn);
                   failed (CallGetDrawingText d1) e] |}
| ran_write_failed rxn d0 d1 png e w' :
    rdkit_ReactionFromSmarts rdkit smarts = inr rxn ->
    rdkit_MolDraw2DCairo rdkit (-1) 150 = inr d0 ->
    rdkit_DrawReaction rdkit (configured d0) rxn = inr d1 ->
    rdkit_GetDrawingText rdkit d1 = inr png ->
    os_write (Path "reaction.png") png w = (inl e, w') ->
    Ran smarts w (inl e)
      {| world := w'; store := [d1];
         trace := [returned (CallReactionFromSmarts smarts);
                   returned (CallMolDraw2DCairo (-1) 150);
                   returned (CallDrawReaction (configured d0) rxn);
                   returned (CallGetDrawingText d1);
                   failed (CallWriteBytes (Path "reaction.png") png) e] |}
| ran_completed rxn d0 d1 png n w' :
    rdkit_ReactionFromSmarts rdkit smarts = inr rxn ->
    rdkit_MolDraw2DCairo rdkit (-1) 150 = inr d0 ->
    rdkit_DrawReaction rdkit (configured d0) rxn = inr d1 ->
    rdkit_GetDrawingText rdkit d1 = inr png ->
    os_write (Path "reaction.png") png w = (inr n, w') ->
    Ran smarts w (inr tt)
      {| world := w'; store := [d1];
         trace := [returned (CallReactionFromSmarts smarts);
                   returned (CallMolDraw2DCairo (-1) 150);
                   returned (CallDrawReaction (configured d0) rxn);
                   returned (CallGetDrawingText d1);
                   returned (CallWriteBytes (Path "reaction.png") png)] |}.

(** The entry points in the order the script reaches them (lines 16 to 22). *)
Definition entry_points : list string :=
  [ "ReactionFromSmarts"; "MolDraw2DCairo"; "DrawReaction";
    "GetDrawingText"; "write_bytes" ]%string.

(** The names of the calls of a trace, in order. *)
Definition call_names (t : list Event) : list string :=
  call_name <$> (call <$> t).

End Model.

(** ** A stand-in toolkit, to run the script on concrete worlds *)

Module Standin.

(** Accepts a descriptor when its square brackets balance. *)
Fixpoint balanced (depth : nat) (s : string) : bool :=
  match s with
  | EmptyString => Nat.eqb depth 0
  | String c rest =>
      if Ascii.eqb c "[" then balanced (S depth) rest
      else if Ascii.eqb c "]" then
        match depth with
        | O => false
        | S d => balanced d rest
        end
      else balanced depth rest
  end.

Definition parse_error : Exception :=
  {| exc_class := "ValueError"; exc_message := "ChemicalReactionParserException" |}.

Definition parse (s : string) : Exception + string :=
  if balanced 0 s then inr s else inl parse_error.

(** The surface: the size asked for and what was painted. *)
Definition blank (width height : Z) : @Drawer (Z * Z * list string) unit :=
  {| options := {| dummiesAreAttachments := false;
                   padding := 0.5%float;
                   other_options := tt |};
     surface := (width, height, []) |}.

Definition create (width height : Z) : Exception + @Drawer (Z * Z * list string) unit :=
  inr (blank width height).

Definition paint (d : @Drawer (Z * Z * list string) unit) (rxn : string)
  : Exception + @Drawer (Z * Z * list string) unit :=
  inr {| options := options d;
         surface := (fst (surface d), rxn :: snd (surface d)) |}.

Definition encode (d : @Drawer (Z * Z * list string) unit) : Exception + bytes :=
  inr (png_signature ++ [x00; x00; x00; x0d]).

Definition toolkit : @Toolkit string (Z * Z * list string) unit :=
  {| rdkit_ReactionFromSmarts := parse;
     rdkit_MolDraw2DCairo := create;
     rdkit_DrawReaction := paint;
     rdkit_GetDrawingText := encode |}.

(** The same with a renderer that gives up. *)
Definition render_error : Exception :=
  {| exc_class := "RuntimeError"; exc_message := "no cairo surface" |}.

Definition broken_toolkit : @Toolkit string (Z * Z * list string) unit :=
  {| rdkit_ReactionFromSmarts := parse;
     rdkit_MolDraw2DCairo := create;
     rdkit_DrawReaction := fun _ _ => inl render_error;
     rdkit_GetDrawingText := encode |}.

Definition home : World :=
  {| argv := ["generate_rxn_image.py"%string];
     environ := ∅;
     cwd := "/home/user";
     files := ∅;
     faults := fun _ _ => None |}.

Definition disk_full : Exception :=
  {| exc_class := "OSError"; exc_message := "No space left on device" |}.

(** A world with an old image in place, and one whose disk fills up after
    three bytes. *)
Definition revisited : World :=
  set_files (<["/home/user/reaction.png"%string := [x01; x02]]> ∅) home.

Definition cramped : World :=
  {| argv := []; environ := ∅; cwd := "/tmp"; files := ∅;
     faults := fun _ _ => Some (WriteRaises disk_full 3) |}.

(** The states two runs end in: one that succeeds over the old image, one
    whose renderer gives up. *)
Definition finished : State := snd (run toolkit revisited).

Definition given_up : State := snd (run broken_toolkit revisited).

(** The state a run ends in when the disk fills up. *)
Definition cut_short : State := snd (run toolkit cramped).

End Standin.

(** * Properties *)

Section Properties.

Context {ChemicalReaction Surface OtherOptions : Type}.
Variable rdkit : @Toolkit ChemicalReaction Surface OtherOptions.

(** ** The interpreter against the rules *)

(** Every run ends by one of the rules of [Ran]: the function is total and
    the rules leave nothing out. *)
Lemma run_with_Ran (smarts : string) (w : World) :
  Ran rdkit smarts w (fst (run_with rdkit smarts w)) (snd (run_with rdkit smarts w)).
Proof.
  unfold run_with, script, bind, ReactionFromSmarts, MolDraw2DCairo, extern, bind.
  destruct (rdkit_ReactionFromSmarts rdkit smarts) as [e | rxn] eqn:Hparse; cbn.
  { by apply ran_parse_failed. }
  destruct (rdkit_MolDraw2DCairo rdkit (-1) 150) as [e | d0] eqn:Hnew; cbn.
  { by eapply ran_create_failed. }
  unfold DrawReaction, GetDrawingText, write_bytes, bind, extern; cbn.
  fold (configured d0).
  destruct (rdkit_DrawReaction rdkit (configured d0) rxn) as [e | d1] eqn:Hdraw; cbn.
  { by eapply ran_draw_failed. }
  destruct (rdkit_GetDrawingText rdkit d1) as [e | png] eqn:Htext; cbn.
  { by eapply ran_text_failed. }
  destruct (os_write (Path "reaction.png") png w) as [[e | n] w'] eqn:Hwrite; cbn.
  - by eapply ran_write_failed.
  - by eapply ran_completed.
Qed.

(** The same, from what a run returned. *)
Lemma run_with_inv (smarts : string) (w : World) r s :
  run_with rdkit smarts w = (r, s) -> Ran rdkit smarts w r s.
Proof.
  intros Hrun. pose proof (run_with_Ran smarts w) as H.
  by rewrite Hrun in H.
Qed.

Lemma run_is_run_with (w : World) :
  run rdkit w = run_with rdkit thiol_maleimide_click_smarts w.
Proof. reflexivity. Qed.

Lemma run_inv (w : World) r s :
  run rdkit w = (r, s) -> Ran rdkit thiol_maleimide_click_smarts w r s.
Proof. apply run_with_inv. Qed.

(** The rules are sound for the interpreter: a run that a rule describes is
    the run the function computes. *)
Lemma Ran_run_with (smarts : string) (w : World) r s :
  Ran rdkit smarts w r s -> run_with rdkit smarts w = (r, s).
Proof.
  intros H.
  destruct H as [e Hp | rxn e Hp Hc | rxn d0 e Hp Hc Hd | rxn d0 d1 e Hp Hc Hd Ht
                | rxn d0 d1 png e w' Hp Hc Hd Ht Hw | rxn d0 d1 png n w' Hp Hc Hd Ht Hw];
    unfold run_with, script, bind, ReactionFromSmarts, MolDraw2DCairo, extern, bind;
    rewrite Hp; cbn; try reflexivity;
    rewrite Hc; cbn; try reflexivity;
    unfold DrawReaction, GetDrawingText, write_bytes, bind, extern; cbn;
    fold (configured d0); rewrite Hd; cbn; try reflexivity;
    rewrite Ht; cbn; try reflexivity;
    rewrite Hw; reflexivity.
Qed.

(** ** What a write does *)

Lemma os_write_returned p data w n w' :
  os_write p data w = (inr n, w') ->
  w' = set_files (<[resolve (cwd w) p := data]> (files w)) w /\
  faults w (resolve (cwd w) p) data = None.
Proof.
  unfold os_write.
  destruct (faults w (resolve (cwd w) p) data) as [[e | e k] |]; intros H;
    inversion H; auto.
Qed.

Lemma os_write_clear p data w :
  faults w (resolve (cwd w) p) data = None ->
  os_write p data w =
    (inr (Z.of_nat (length data)),
     set_files (<[resolve (cwd w) p := data]> (files w)) w).
Proof. unfold os_write. by intros ->. Qed.

Lemma starts_with_signature_nonempty (data : bytes) :
  starts_with png_signature data = true -> data <> [].
Proof. by destruct data. Qed.

(** ** The descriptor *)

(** C1: the reaction descriptor built by joining the reactants with ".",
    appending ">>" and the products joined with "." is exactly the literal
    string of the specification. *)
Theorem descriptor_literal :
  thiol_maleimide_click_smarts =
  "[*]-[S]-[H].[*]-[N]1-[C](=[O])-[CH]=[CH]-[C](=[O])-1>>[*]-[N]1-[C](=[O])-[CH2]-[CH](-[S]-[*])-[C](=[O])-1"%string.
Proof. reflexivity. Qed.

(** ** Order of the calls *)

(** In every run the parser is called first, on the descriptor given. *)
Lemma parser_called_first (smarts : string) (w : World) :
  exists r rest,
    trace (snd (run_with rdkit smarts w)) =
    {| call := CallReactionFromSmarts smarts; raised := r |} :: rest.
Proof.
  destruct (run_with_Ran smarts w); cbn; eauto.
Qed.

(** A write, when there is one, is the last call of the run, and it is to
    [reaction.png]. *)
Lemma write_called_last (smarts : string) (w : World) p data :
  (p, data) ∈ written (trace (snd (run_with rdkit smarts w))) ->
  p = Path "reaction.png" /\
  exists r, last (trace (snd (run_with rdkit smarts w))) =
            Some {| call := CallWriteBytes p data; raised := r |}.
Proof.
  destruct (run_with_Ran smarts w); cbn; intros Hin;
    repeat (apply elem_of_cons in Hin as [Hin | Hin]; [inversion Hin; subst |]);
    try (by apply elem_of_nil in Hin); eauto.
Qed.

(** C2: when the parser rejects the descriptor, the run fails with the
    parser's exception before any write is attempted: the parser's call is
    the only call made, and the world, its files included, is as it was. *)
Theorem malformed_descriptor_writes_nothing
  (smarts : string) (e : Exception) (w : World) :
  rdkit_ReactionFromSmarts rdkit smarts = inl e ->
  fst (run_with rdkit smarts w) = inl e /\
  trace (snd (run_with rdkit smarts w)) = [failed (CallReactionFromSmarts smarts) e] /\
  written (trace (snd (run_with rdkit smarts w))) = [] /\
  world (snd (run_with rdkit smarts w)) = w.
Proof.
  intros Hparse.
  destruct (run_with_Ran smarts w); cbn; try congruence.
  assert (e0 = e) as -> by congruence. auto.
Qed.

(** C3: a run that succeeds makes exactly one write, to [reaction.png]; the
    data are the bytes [GetDrawingText] returned, they are what the file
    holds afterwards, and no other file changes.  RDKit's Cairo drawer
    returns PNG data; given that, the file is not empty and starts with the
    PNG signature. *)
Theorem successful_run_writes_png (w : World) (s : State) :
  (forall d data, rdkit_GetDrawingText rdkit d = inr data ->
                  starts_with png_signature data = true) ->
  run rdkit w = (inr tt, s) ->
  exists d png,
    rendered (trace s) = [d] /\
    rdkit_GetDrawingText rdkit d = inr png /\
    written (trace s) = [(Path "reaction.png", png)] /\
    failures (trace s) = [] /\
    files (world s) = <[resolve (cwd w) (Path "reaction.png") := png]> (files w) /\
    files (world s) !! resolve (cwd w) (Path "reaction.png") = Some png /\
    png <> [] /\
    starts_with png_signature png = true.
Proof.
  intros Hpng Hrun. apply run_inv in Hrun.
  inversion Hrun as [ | | | | | rxn d0 d1 png n w' Hp Hc Hd Ht Hw]; subst.
  apply os_write_returned in Hw as [-> _].
  exists d1, png. cbn.
  assert (starts_with png_signature png = true) as Hsig by eauto.
  split_and!; auto.
  - apply lookup_insert_eq.
  - by apply starts_with_signature_nonempty.
Qed.


(** ** Running again *)

Lemma insert_over (t : string) (png : bytes) (fs fs' : gmap string bytes) :
  (forall k, k <> t -> fs !! k = fs' !! k) ->
  <[t := png]> fs = <[t := png]> fs'.
Proof.
  intros Hoff. apply map_eq. intros k.
  destruct (decide (t = k)) as [-> | Hne].
  - by rewrite !lookup_insert_eq.
  - rewrite !lookup_insert_ne by done. apply Hoff. congruence.
Qed.

(** C4: a run that succeeds puts the rendered bytes in place of whatever
    [reaction.png] held; the outcome is the same whatever the file held
    before (or if it did not exist); a second run from the world the first
    one left succeeds and leaves that world as it is; and any two runs that
    succeed, with the same toolkit, leave the same bytes in their
    [reaction.png]. *)
Theorem rerun_idempotent (w : World) (s : State) :
  run rdkit w = (inr tt, s) ->
  exists png,
    files (world s) = <[resolve (cwd w) (Path "reaction.png") := png]> (files w) /\
    (forall fs,
        (forall k, k <> resolve (cwd w) (Path "reaction.png") -> fs !! k = files w !! k) ->
        exists s', run rdkit (set_files fs w) = (inr tt, s') /\
                   files (world s') = files (world s)) /\
    (exists s', run rdkit (world s) = (inr tt, s') /\
                world s' = world s /\ trace s' = trace s) /\
    (forall w2 s2,
        run rdkit w2 = (inr tt, s2) ->
        files (world s2) !! resolve (cwd w2) (Path "reaction.png") = Some png).
Proof.
  intros Hrun. apply run_inv in Hrun.
  inversion Hrun as [ | | | | | rxn d0 d1 png n w' Hp Hc Hd Ht Hw]; subst.
  apply os_write_returned in Hw as [-> Hclear].
  exists png. cbn. split_and!.
  - reflexivity.
  - intros fs Hoff. eexists. split.
    + apply Ran_run_with. eapply ran_completed; eauto.
      apply os_write_clear. exact Hclear.
    + cbn. by apply insert_over.
  - eexists. split_and!.
    + apply Ran_run_with. eapply ran_completed; eauto.
      apply os_write_clear. exact Hclear.
    + cbn. unfold set_files; cbn. by rewrite insert_insert_eq.
    + reflexivity.
  - intros w2 s2 Hrun2. apply run_inv in Hrun2.
    inversion Hrun2 as [ | | | | | rxn' d0' d1' png' n' w2' Hp' Hc' Hd' Ht' Hw']; subst.
    apply os_write_returned in Hw' as [-> _]. cbn.
    assert (png' = png) as -> by congruence.
    apply lookup_insert_eq.
Qed.

(** ** The drawer *)

(** C5: when the parser and the constructor return, [DrawReaction] is called
    once, on the drawer the constructor returned with [dummiesAreAttachments]
    set to [True] and [padding] to [0.0]; its other options and its surface
    are as the constructor left them. *)
Theorem options_set_before_drawing
  (smarts : string) (w : World) (rxn : ChemicalReaction) (d0 : Drawer) :
  rdkit_ReactionFromSmarts rdkit smarts = inr rxn ->
  rdkit_MolDraw2DCairo rdkit (-1) 150 = inr d0 ->
  exists d,
    drawn (trace (snd (run_with rdkit smarts w))) = [(d, rxn)] /\
    dummiesAreAttachments (options d) = true /\
    padding (options d) = 0%float /\
    other_options (options d) = other_options (options d0) /\
    surface d = surface d0.
Proof.
  intros Hparse Hnew. exists (configured d0).
  destruct (run_with_Ran smarts w); cbn; try congruence;
    repeat match goal with
           | H : rdkit_ReactionFromSmarts _ _ = inr ?x |- _ =>
               assert (x = rxn) as -> by congruence; clear H
           | H : rdkit_MolDraw2DCairo _ _ _ = inr ?x |- _ =>
               assert (x = d0) as -> by congruence; clear H
           end; auto.
Qed.


(** ** No input, no handler *)

(** C6: whatever the two worlds, the parser is called on the same descriptor,
    the constant of the script, and any two writes are of the same bytes to
    the same path; and changing only the arguments and the environment
    variables of a world changes neither the result, nor the calls, nor the
    files of the run. *)
Theorem no_input_from_environment (w1 w2 : World) :
  parsed (trace (snd (run rdkit w1))) = [thiol_maleimide_click_smarts] /\
  parsed (trace (snd (run rdkit w2))) = parsed (trace (snd (run rdkit w1))) /\
  (forall p1 b1 p2 b2,
      (p1, b1) ∈ written (trace (snd (run rdkit w1))) ->
      (p2, b2) ∈ written (trace (snd (run rdkit w2))) ->
      p1 = p2 /\ b1 = b2) /\
  (forall a e,
      fst (run rdkit (set_inputs a e w1)) = fst (run rdkit w1) /\
      trace (snd (run rdkit (set_inputs a e w1))) = trace (snd (run rdkit w1)) /\
      files (world (snd (run rdkit (set_inputs a e w1)))) =
        files (world (snd (run rdkit w1)))).
Proof.
  split_and!.
  - rewrite run_is_run_with.
    destruct (run_with_Ran thiol_maleimide_click_smarts w1); reflexivity.
  - rewrite !run_is_run_with.
    destruct (run_with_Ran thiol_maleimide_click_smarts w1);
      destruct (run_with_Ran thiol_maleimide_click_smarts w2); reflexivity.
  - rewrite !run_is_run_with. intros p1 b1 p2 b2.
    destruct (run_with_Ran thiol_maleimide_click_smarts w1);
      destruct (run_with_Ran thiol_maleimide_click_smarts w2); cbn;
      intros Hin1 Hin2;
      try (by apply elem_of_nil in Hin1); try (by apply elem_of_nil in Hin2);
      apply list_elem_of_singleton in Hin1; apply list_elem_of_singleton in Hin2;
      inversion Hin1; inversion Hin2; subst; split; congruence.
  - intros a e.
    destruct (run rdkit w1) as [r s] eqn:Hrun. apply run_inv in Hrun.
    assert (exists s', Ran rdkit thiol_maleimide_click_smarts (set_inputs a e w1) r s' /\
                       trace s' = trace s /\ files (world s') = files (world s))
      as (s' & Hran & Ht & Hf).
    { inversion Hrun; subst;
        try (eexists; split; [econstructor; eassumption | split; reflexivity]).
      - unfold os_write in *. cbn in *.
        destruct (faults w1 _ _) as [[e1 | e1 k] |] eqn:Hfault;
          match goal with H : (_, _) = (_, _) |- _ => inversion H; subst end;
          (eexists; split;
           [eapply ran_write_failed; eauto; unfold os_write; cbn; rewrite Hfault; reflexivity
           | split; reflexivity]).
      - unfold os_write in *. cbn in *.
        destruct (faults w1 _ _) as [[e1 | e1 k] |] eqn:Hfault;
          match goal with H : (_, _) = (_, _) |- _ => inversion H; subst end.
        eexists; split;
          [eapply ran_completed; eauto; unfold os_write; cbn; rewrite Hfault; reflexivity
          | split; reflexivity]. }
    apply Ran_run_with in Hran. rewrite run_is_run_with, Hran. cbn. auto.
Qed.

(** C7: an exception that comes out of a call is the result of the run, as it
    is, and that call is the last one made; a run that ends with an
    exception got it from its last call; a run that returns saw no
    exception; and no entry point is called twice. *)
Theorem exceptions_propagate (smarts : string) (w : World) :
  (forall ev e,
      ev ∈ trace (snd (run_with rdkit smarts w)) ->
      raised ev = Some e ->
      fst (run_with rdkit smarts w) = inl e /\
      last (trace (snd (run_with rdkit smarts w))) = Some ev) /\
  (forall e,
      fst (run_with rdkit smarts w) = inl e ->
      exists c, last (trace (snd (run_with rdkit smarts w))) = Some (failed c e)) /\
  (fst (run_with rdkit smarts w) = inr tt ->
   failures (trace (snd (run_with rdkit smarts w))) = []) /\
  NoDup (call_name <$> (call <$> trace (snd (run_with rdkit smarts w)))).
Proof.
  destruct (run_with_Ran smarts w); cbn; split_and!;
    try (intros ev e' Hin Hraised;
         repeat (apply elem_of_cons in Hin as [-> | Hin]; [cbn in Hraised; try discriminate |]);
         try (by apply elem_of_nil in Hin);
         inversion Hraised; subst; by split);
    try (intros e' Heq; inversion Heq; subst; eexists; reflexivity);
    try (intros Heq; (discriminate || reflexivity));
    apply (bool_decide_unpack _); reflexivity.
Qed.

(** ** Where the file goes *)

Lemma list_ascii_of_append (a b : string) :
  list_ascii_of_string (a +:+ b) = list_ascii_of_string a ++ list_ascii_of_string b.
Proof. induction a as [| c a IH]; simpl; [reflexivity | by f_equal]. Qed.

Lemma append_inv_tail (a b t : string) : a +:+ t = b +:+ t -> a = b.
Proof.
  intros H. apply (f_equal list_ascii_of_string) in H.
  rewrite !list_ascii_of_append in H. apply app_inv_tail in H.
  apply (f_equal string_of_list_ascii) in H.
  by rewrite !string_of_list_ascii_of_string in H.
Qed.

Lemma resolve_relative (dir : string) :
  resolve dir (Path "reaction.png") =
  if ends_with_sep dir then dir +:+ "reaction.png" else dir +:+ "/reaction.png".
Proof. unfold resolve. cbn. by destruct (ends_with_sep dir). Qed.

Lemma resolve_follows_directory (dir dir' : string) :
  ends_with_sep dir = false -> ends_with_sep dir' = false ->
  resolve dir (Path "reaction.png") = resolve dir' (Path "reaction.png") ->
  dir = dir'.
Proof.
  intros Hd Hd'. rewrite !resolve_relative, Hd, Hd'. apply append_inv_tail.
Qed.

(** C9: the path given to [write_bytes] is not absolute; a run that succeeds
    leaves the image in the working directory of its world, at the
    directory's name followed by [/reaction.png], and changes no file
    elsewhere; a run in another working directory leaves it in another
    place. *)
Theorem image_lands_in_working_directory (w : World) (s : State) :
  run rdkit w = (inr tt, s) ->
  is_absolute (Path "reaction.png") = false /\
  resolve (cwd w) (Path "reaction.png") =
    (if ends_with_sep (cwd w) then cwd w +:+ "reaction.png"
     else cwd w +:+ "/reaction.png") /\
  (exists png,
      written (trace s) = [(Path "reaction.png", png)] /\
      files (world s) !! resolve (cwd w) (Path "reaction.png") = Some png) /\
  (forall k, k <> resolve (cwd w) (Path "reaction.png") ->
             files (world s) !! k = files w !! k) /\
  (forall w', ends_with_sep (cwd w) = false -> ends_with_sep (cwd w') = false ->
              cwd w' <> cwd w ->
              resolve (cwd w') (Path "reaction.png") <>
              resolve (cwd w) (Path "reaction.png")).
Proof.
  intros Hrun. apply run_inv in Hrun.
  inversion Hrun as [ | | | | | rxn d0 d1 png n w' Hp Hc Hd Ht Hw]; subst.
  apply os_write_returned in Hw as [-> _]. cbn.
  split_and!.
  - reflexivity.
  - apply resolve_relative.
  - exists png. split; [reflexivity | apply lookup_insert_eq].
  - intros k Hk. by rewrite lookup_insert_ne.
  - intros w2 Hs Hs2 Hne Heq. apply Hne.
    by apply resolve_follows_directory.
Qed.

End Properties.

(** * The theorems at work on concrete runs *)

(** A descriptor with an unclosed bracket, and an old image in place. *)
Lemma malformed_descriptor_writes_nothing_witness :
  fst (run_with Standin.toolkit "[*]-[S" Standin.revisited) = inl Standin.parse_error /\
  trace (snd (run_with Standin.toolkit "[*]-[S" Standin.revisited)) =
    [failed (CallReactionFromSmarts "[*]-[S") Standin.parse_error] /\
  written (trace (snd (run_with Standin.toolkit "[*]-[S" Standin.revisited))) = [] /\
  world (snd (run_with Standin.toolkit "[*]-[S" Standin.revisited)) = Standin.revisited.
Proof.
  apply (malformed_descriptor_writes_nothing Standin.toolkit "[*]-[S"
           Standin.parse_error Standin.revisited).
  reflexivity.
Defined.

(** A run that succeeds over an old image. *)
Lemma successful_run_writes_png_witness :
  exists d png,
    rendered (trace Standin.finished) = [d] /\
    rdkit_GetDrawingText Standin.toolkit d = inr png /\
    written (trace Standin.finished) = [(Path "reaction.png", png)] /\
    failures (trace Standin.finished) = [] /\
    files (world Standin.finished) =
      <[resolve (cwd Standin.revisited) (Path "reaction.png") := png]>
        (files Standin.revisited) /\
    files (world Standin.finished) !! resolve (cwd Standin.revisited) (Path "reaction.png")
      = Some png /\
    png <> [] /\
    starts_with png_signature png = true.
Proof.
  apply (successful_run_writes_png Standin.toolkit Standin.revisited Standin.finished).
  - intros d data H. inversion H. reflexivity.
  - vm_compute. reflexivity.
Defined.

(** Running twice over an old image. *)
Lemma rerun_idempotent_witness :
  exists png,
    files (world Standin.finished) =
      <[resolve (cwd Standin.revisited) (Path "reaction.png") := png]>
        (files Standin.revisited) /\
    (forall fs,
        (forall k, k <> resolve (cwd Standin.revisited) (Path "reaction.png") ->
                   fs !! k = files Standin.revisited !! k) ->
        exists s', run Standin.toolkit (set_files fs Standin.revisited) = (inr tt, s') /\
                   files (world s') = files (world Standin.finished)) /\
    (exists s', run Standin.toolkit (world Standin.finished) = (inr tt, s') /\
                world s' = world Standin.finished /\ trace s' = trace Standin.finished) /\
    (forall w2 s2,
        run Standin.toolkit w2 = (inr tt, s2) ->
        files (world s2) !! resolve (cwd w2) (Path "reaction.png") = Some png).
Proof.
  apply (rerun_idempotent Standin.toolkit Standin.revisited Standin.finished).
  vm_compute. reflexivity.
Defined.

(** The drawer of the stand-in toolkit when it is asked to draw. *)
Lemma options_set_before_drawing_witness :
  exists d,
    drawn (trace (snd (run_with Standin.toolkit thiol_maleimide_click_smarts Standin.home)))
      = [(d, thiol_maleimide_click_smarts)] /\
    dummiesAreAttachments (options d) = true /\
    padding (options d) = 0%float /\
    other_options (options d) = other_options (options (Standin.blank (-1) 150)) /\
    surface d = surface (Standin.blank (-1) 150).
Proof.
  apply (options_set_before_drawing Standin.toolkit thiol_maleimide_click_smarts
           Standin.home thiol_maleimide_click_smarts (Standin.blank (-1) 150)).
  - reflexivity.
  - reflexivity.
Defined.


(** A run in [/home/user]. *)
Lemma image_lands_in_working_directory_witness :
  is_absolute (Path "reaction.png") = false /\
  resolve (cwd Standin.revisited) (Path "reaction.png") =
    (if ends_with_sep (cwd Standin.revisited) then cwd Standin.revisited +:+ "reaction.png"
     else cwd Standin.revisited +:+ "/reaction.png") /\
  (exists png,
      written (trace Standin.finished) = [(Path "reaction.png", png)] /\
      files (world Standin.finished) !! resolve (cwd Standin.revisited) (Path "reaction.png")
        = Some png) /\
  (forall k, k <> resolve (cwd Standin.revisited) (Path "reaction.png") ->
             files (world Standin.finished) !! k = files Standin.revisited !! k) /\
  (forall w', ends_with_sep (cwd Standin.revisited) = false ->
              ends_with_sep (cwd w') = false ->
              cwd w' <> cwd Standin.revisited ->
              resolve (cwd w') (Path "reaction.png") <>
              resolve (cwd Standin.revisited) (Path "reaction.png")).
Proof.
  apply (image_lands_in_working_directory Standin.toolkit Standin.revisited Standin.finished).
  vm_compute. reflexivity.
Defined.


(** When the write itself breaks off, the file is left with the bytes that
    got through. *)
Lemma short_write_leaves_partial_file :
  fst (run Standin.toolkit Standin.cramped) = inl Standin.disk_full /\
  files (world (snd (run Standin.toolkit Standin.cramped))) !! "/tmp/reaction.png"%string
    = Some [x89; x50; x4e].
Proof. vm_compute. split; reflexivity. Qed.

(** * More on the runs of the script *)

Section Runs.

Context {ChemicalReaction Surface OtherOptions : Type}.
Variable rdkit : @Toolkit ChemicalReaction Surface OtherOptions.

(** In every run, of any descriptor in any world, the calls made are an
    initial part of the five calls of lines 16 to 22, in the order of the
    script: nothing is called out of turn and no step is skipped. *)
Theorem calls_follow_script_order (smarts : string) (w : World) :
  call_names (trace (snd (run_with rdkit smarts w))) `prefix_of` entry_points.
Proof.
  destruct (run_with_Ran rdkit smarts w); cbn; eexists; reflexivity.
Qed.

(** The run returns exactly when every step does: the parser accepts the
    descriptor, the constructor returns a drawer, [DrawReaction] returns on
    that drawer with the two options set, [GetDrawingText] returns on the
    drawer that was drawn on, and the write of those bytes meets no fault. *)
Theorem run_returns_iff_all_steps_return (smarts : string) (w : World) :
  fst (run_with rdkit smarts w) = inr tt <->
  exists rxn d0 d1 png,
    rdkit_ReactionFromSmarts rdkit smarts = inr rxn /\
    rdkit_MolDraw2DCairo rdkit (-1) 150 = inr d0 /\
    rdkit_DrawReaction rdkit (configured d0) rxn = inr d1 /\
    rdkit_GetDrawingText rdkit d1 = inr png /\
    faults w (resolve (cwd w) (Path "reaction.png")) png = None.
Proof.
  split.
  - destruct (run_with rdkit smarts w) as [r s] eqn:Hrun. cbn. intros ->.
    apply run_with_inv in Hrun.
    inversion Hrun as [ | | | | | rxn d0 d1 png n w' Hp Hc Hd Ht Hw]; subst.
    apply os_write_returned in Hw as [_ Hclear].
    exists rxn, d0, d1, png. auto.
  - intros (rxn & d0 & d1 & png & Hp & Hc & Hd & Ht & Hclear).
    erewrite Ran_run_with; [reflexivity |].
    eapply ran_completed; eauto. by apply os_write_clear.
Qed.

(** When the run returns, the bytes in [reaction.png] are those of the
    drawing of the reaction parsed from the descriptor given: the result of
    [GetDrawingText] on the drawer [DrawReaction] left, called on the new
    drawer with its two options set and on what the parser returned.  That
    drawer is the one object the script holds at the end. *)
Theorem image_is_drawing_of_descriptor (smarts : string) (w : World) (s : State) :
  run_with rdkit smarts w = (inr tt, s) ->
  exists rxn d0 d1 png,
    rdkit_ReactionFromSmarts rdkit smarts = inr rxn /\
    rdkit_MolDraw2DCairo rdkit (-1) 150 = inr d0 /\
    rdkit_DrawReaction rdkit (configured d0) rxn = inr d1 /\
    rdkit_GetDrawingText rdkit d1 = inr png /\
    drawn (trace s) = [(configured d0, rxn)] /\
    rendered (trace s) = [d1] /\
    store s = [d1] /\
    files (world s) !! resolve (cwd w) (Path "reaction.png") = Some png.
Proof.
  intros Hrun. apply run_with_inv in Hrun.
  inversion Hrun as [ | | | | | rxn d0 d1 png n w' Hp Hc Hd Ht Hw]; subst.
  apply os_write_returned in Hw as [-> _].
  exists rxn, d0, d1, png. cbn. split_and!; auto.
  apply lookup_insert_eq.
Qed.

(** When the run ends with an exception after [write_bytes] was reached, the
    exception is the one of the write, and the image file is either as it was
    (the open raised) or cut down to an initial part of the rendered bytes
    (the write raised after the file was truncated). *)
Theorem failed_write_leaves_old_or_partial_file
  (smarts : string) (w : World) (e : Exception) (s : State) :
  run_with rdkit smarts w = (inl e, s) ->
  written (trace s) <> [] ->
  exists png,
    written (trace s) = [(Path "reaction.png", png)] /\
    last (trace s) = Some (failed (CallWriteBytes (Path "reaction.png") png) e) /\
    ((faults w (resolve (cwd w) (Path "reaction.png")) png = Some (OpenRaises e) /\
      world s = w) \/
     (exists n,
         faults w (resolve (cwd w) (Path "reaction.png")) png = Some (WriteRaises e n) /\
         files (world s) =
           <[resolve (cwd w) (Path "reaction.png") := take n png]> (files w) /\
         take n png `prefix_of` png)).
Proof.
  intros Hrun Hsome. apply run_with_inv in Hrun.
  inversion Hrun as [ | | | | rxn d0 d1 png e' w' Hp Hc Hd Ht Hw | ]; subst;
    cbn in Hsome; try congruence.
  exists png. cbn. split_and!; try reflexivity.
  unfold os_write in Hw.
  destruct (faults w (resolve (cwd w) (Path "reaction.png")) png)
    as [[e1 | e1 n] |] eqn:Hfault; inversion Hw; subst.
  - left. auto.
  - right. exists n. split_and!; auto. apply prefix_take.
Qed.

(** Whatever the run does, it leaves the arguments, the environment
    variables and the working directory as they were, and no file other than
    [reaction.png] in the working directory is created, changed or removed. *)
Theorem run_touches_only_the_image (smarts : string) (w : World) :
  argv (world (snd (run_with rdkit smarts w))) = argv w /\
  environ (world (snd (run_with rdkit smarts w))) = environ w /\
  cwd (world (snd (run_with rdkit smarts w))) = cwd w /\
  (forall k, k <> resolve (cwd w) (Path "reaction.png") ->
             files (world (snd (run_with rdkit smarts w))) !! k = files w !! k).
Proof.
  destruct (run_with_Ran rdkit smarts w)
    as [ | | | | rxn d0 d1 png e w' Hp Hc Hd Ht Hw | rxn d0 d1 png n w' Hp Hc Hd Ht Hw];
    cbn; auto.
  - unfold os_write in Hw.
    destruct (faults w (resolve (cwd w) (Path "reaction.png")) png)
      as [[e1 | e1 n] |]; inversion Hw; subst; cbn; split_and!; auto.
    intros k Hk. by rewrite lookup_insert_ne.
  - apply os_write_returned in Hw as [-> _]. cbn. split_and!; auto.
    intros k Hk. by rewrite lookup_insert_ne.
Qed.

End Runs.

(** A run that succeeds on the stand-in toolkit. *)
Lemma image_is_drawing_of_descriptor_witness :
  exists rxn d0 d1 png,
    rdkit_ReactionFromSmarts Standin.toolkit thiol_maleimide_click_smarts = inr rxn /\
    rdkit_MolDraw2DCairo Standin.toolkit (-1) 150 = inr d0 /\
    rdkit_DrawReaction Standin.toolkit (configured d0) rxn = inr d1 /\
    rdkit_GetDrawingText Standin.toolkit d1 = inr png /\
    drawn (trace Standin.finished) = [(configured d0, rxn)] /\
    rendered (trace Standin.finished) = [d1] /\
    store Standin.finished = [d1] /\
    files (world Standin.finished) !!
      resolve (cwd Standin.revisited) (Path "reaction.png") = Some png.
Proof.
  apply (image_is_drawing_of_descriptor Standin.toolkit thiol_maleimide_click_smarts
           Standin.revisited Standin.finished).
  vm_compute. reflexivity.
Defined.

(** A disk that fills up after three bytes. *)
Lemma failed_write_leaves_old_or_partial_file_witness :
  exists png,
    written (trace Standin.cut_short) = [(Path "reaction.png", png)] /\
    last (trace Standin.cut_short) =
      Some (failed (CallWriteBytes (Path "reaction.png") png) Standin.disk_full) /\
    ((faults Standin.cramped (resolve (cwd Standin.cramped) (Path "reaction.png")) png
        = Some (OpenRaises Standin.disk_full) /\
      world Standin.cut_short = Standin.cramped) \/
     (exists n,
         faults Standin.cramped (resolve (cwd Standin.cramped) (Path "reaction.png")) png
           = Some (WriteRaises Standin.disk_full n) /\
         files (world Standin.cut_short) =
           <[resolve (cwd Standin.cramped) (Path "reaction.png") := take n png]>
             (files Standin.cramped) /\
         take n png `prefix_of` png)).
Proof.
  apply (failed_write_leaves_old_or_partial_file Standin.toolkit
           thiol_maleimide_click_smarts Standin.cramped
           Standin.disk_full Standin.cut_short).
  - vm_compute. reflexivity.
  - vm_compute. discriminate.
Defined.
